(** * c-plane: the in-memory device / fault registry and its statistics cache

    A shallow embedding of [internal/context/context.go] together with the
    data model of [internal/models] it works on, and the properties of the
    registry store, the statistics cache and the filter engine.

    Conventions of the embedding.

    - The context stores *pointers* ([map[string]*models.Device], ...), and
      several operations write through them, so objects live in an explicit
      heap: a pointer is a location, and the heap maps locations to objects.
      Go has no dangling pointers; a location without a heap cell plays the
      role of [nil], and dereferencing it is the run-time panic, modelled as
      the result [None].
    - Every method runs under the lock(s) it takes, so it is modelled as one
      atomic state transformer; the mutexes themselves are not modelled, and
      neither are the connectivity status and the configuration value that
      the [Context] struct also carries.
    - [time.Now()] is an input: each call site receives a clock reading.
    - A Go [int] is a 64-bit two's-complement integer; [x++] wraps. *)

From Stdlib Require Import ZArith Lia.
From stdpp Require Import gmap strings list fin_maps.

Local Open Scope Z_scope.

(** ** Go's 64-bit [int] *)

Module goint.

Definition maxInt : Z := 2 ^ 63 - 1.
Definition minInt : Z := - 2 ^ 63.

(** Two's-complement wrap-around into the range of [int]. *)
Definition wrap (z : Z) : Z := (z + 2 ^ 63) mod 2 ^ 64 - 2 ^ 63.

(** [x++] *)
Definition incr (x : Z) : Z := wrap (x + 1).

End goint.

(** ** The part of Go's [time] package the context uses

    A [Time] carries a wall-clock reading and, when it comes from
    [time.Now()], a monotonic-clock reading.  The wall clock is counted in
    nanoseconds from the zero [Time] (January 1, year 1, 00:00:00 UTC), so
    [Time{}] is [zero].  [time.Since t] subtracts on the monotonic clock when
    [t] has a monotonic reading and on the wall clock otherwise, and
    saturates at the bounds of [Duration] (an [int64] of nanoseconds). *)

Module time.

Definition Duration := Z.

Definition Nanosecond : Duration := 1.
Definition Second : Duration := 1000000000 * Nanosecond.
Definition Minute : Duration := 60 * Second.

Definition minDuration : Duration := - 2 ^ 63.
Definition maxDuration : Duration := 2 ^ 63 - 1.

Record Time := mkTime { wall : Z; mono : option Z }.

(** [time.Time{}] *)
Definition zero : Time := {| wall := 0; mono := None |}.

(** One reading of the operating system's two clocks. *)
Record Clock := mkClock { wallClock : Z; monoClock : Z }.

(** [time.Now()] at the reading [c]. *)
Definition Now (c : Clock) : Time :=
  {| wall := wallClock c; mono := Some (monoClock c) |}.

Definition saturate (d : Z) : Duration :=
  Z.max minDuration (Z.min maxDuration d).

(** [time.Since(t)] evaluated at the reading [c]. *)
Definition Since (c : Clock) (t : Time) : Duration :=
  match mono t with
  | Some m => saturate (monoClock c - m)
  | None => saturate (wallClock c - wall t)
  end.

End time.

(** ** [internal/models] *)

Module models.

Import time.

(** Values of type [interface{}] that the JSON decoder produces; the
    context never inspects them. *)
Inductive Any :=
| AnyNil
| AnyBool (b : bool)
| AnyNumber (z : Z)
| AnyString (s : string).

Record DeviceID := mkDeviceID {
  DeviceID_Manufacturer : string;
  DeviceID_OUI : string;
  DeviceID_ProductClass : string;
  DeviceID_SerialNumber : string;
  DeviceID_DeviceIDString : string;
  DeviceID_HardwareVersion : string;
  DeviceID_SoftwareVersion : string;
  DeviceID_ModelName : string;
  DeviceID_ProvisioningCode : string;
  DeviceID_ManufacturerOUI : string;
  DeviceID_ExternalIPAddress : string;
  DeviceID_IPAddress : string
}.

Record ConnectionRequest := mkConnectionRequest {
  ConnectionRequest_URL : string;
  ConnectionRequest_Username : string;
  ConnectionRequest_Password : string
}.

Record DeviceStatus := mkDeviceStatus {
  DeviceStatus_Online : bool;
  DeviceStatus_LastSeen : Time;
  DeviceStatus_ConnectionStatus : string;
  DeviceStatus_ErrorCount : Z
}.

(** The struct [Parameter]. *)
Record ParameterT := mkParameter {
  Parameter_Path : string;
  Parameter_Value : Any;
  Parameter_Type : string;
  Parameter_Writable : bool;
  Parameter_LastUpdate : Time;
  Parameter_Attributes : gmap string Any
}.

Record Device := mkDevice {
  Device_ID : string;
  Device_DeviceID : DeviceID;
  Device_LastInform : Time;
  Device_LastBoot : Time;
  Device_LastBootstrap : Time;
  Device_LastRegistered : Time;
  Device_Root : string;
  Device_Tags : gmap string bool;
  Device_DeviceInfo : gmap string Any;
  Device_Parameters : gmap string ParameterT;
  Device_ConnectionRequest : ConnectionRequest;
  Device_Status : DeviceStatus
}.

Record Fault := mkFault {
  Fault_ID : string;
  Fault_DeviceID : string;
  Fault_DeviceSerial : string;
  Fault_DeviceModel : string;
  Fault_Channel : string;
  Fault_Code : string;
  Fault_Message : string;
  Fault_Detail : string;
  Fault_Severity : string;
  Fault_Timestamp : Time;
  Fault_Expiry : option Time;
  Fault_Retries : Z;
  Fault_Status : string;
  Fault_AcknowledgedBy : string;
  Fault_AcknowledgedAt : option Time;
  Fault_ResolvedBy : string;
  Fault_ResolvedAt : option Time;
  Fault_Tags : list string
}.

Definition SeverityCritical : string := "critical".
Definition SeverityMajor : string := "major".
Definition SeverityMinor : string := "minor".
Definition SeverityWarning : string := "warning".
Definition SeverityInfo : string := "info".

Definition FaultStatusActive : string := "active".
Definition FaultStatusAcknowledged : string := "acknowledged".
Definition FaultStatusResolved : string := "resolved".
Definition FaultStatusExpired : string := "expired".

Record IPRange := mkIPRange {
  IPRange_StartIP : string;
  IPRange_EndIP : string
}.

Record PaginationOptions := mkPaginationOptions {
  PaginationOptions_Page : Z;
  PaginationOptions_PageSize : Z;
  PaginationOptions_SortBy : string;
  PaginationOptions_SortDir : string
}.

(** The pointer fields [IPRange], [Online] and [Pagination] are [None]
    when [nil]. *)
Record DeviceFilter := mkDeviceFilter {
  DeviceFilter_IPRange : option IPRange;
  DeviceFilter_Manufacturer : string;
  DeviceFilter_ModelName : string;
  DeviceFilter_ProductClass : string;
  DeviceFilter_Tags : list string;
  DeviceFilter_Online : option bool;
  DeviceFilter_Search : string;
  DeviceFilter_Pagination : option PaginationOptions
}.

Record DeviceStats := mkDeviceStats {
  TotalDevices : Z;
  OnlineDevices : Z;
  OfflineDevices : Z;
  DevicesByVendor : gmap string Z;
  DevicesByModel : gmap string Z;
  ActiveFaults : Z;
  CriticalFaults : Z
}.

(** The sentinel errors of the package that concern devices and faults. *)
Inductive error :=
| ErrDeviceNotFound
| ErrDeviceAlreadyExists
| ErrInvalidDeviceID
| ErrFaultNotFound
| ErrFaultAlreadyExists
| ErrInvalidFaultID
| ErrFaultAlreadyAcknowledged
| ErrFaultAlreadyResolved.

End models.

(** ** [internal/context] *)

Module context.

Import time models goint.

(** A pointer. *)
Definition loc := positive.

(** The [Context] struct together with the heap cells its pointers refer
    to: [devObjs], [faultObjs] and [statsObjs] are the heap, the other
    fields are those of the struct. *)
Record World := mkWorld {
  devObjs : gmap loc Device;
  faultObjs : gmap loc Fault;
  statsObjs : gmap loc DeviceStats;
  devices : gmap string loc;
  faults : gmap string loc;
  statsCache : loc;
  statsCacheTime : Time
}.

Definition set_devObjs (h : gmap loc Device) (w : World) : World :=
  mkWorld h (faultObjs w) (statsObjs w) (devices w) (faults w)
          (statsCache w) (statsCacheTime w).

Definition set_faultObjs (h : gmap loc Fault) (w : World) : World :=
  mkWorld (devObjs w) h (statsObjs w) (devices w) (faults w)
          (statsCache w) (statsCacheTime w).

Definition set_devices (m : gmap string loc) (w : World) : World :=
  mkWorld (devObjs w) (faultObjs w) (statsObjs w) m (faults w)
          (statsCache w) (statsCacheTime w).

Definition set_faults (m : gmap string loc) (w : World) : World :=
  mkWorld (devObjs w) (faultObjs w) (statsObjs w) (devices w) m
          (statsCache w) (statsCacheTime w).

Definition set_statsCacheTime (t : Time) (w : World) : World :=
  mkWorld (devObjs w) (faultObjs w) (statsObjs w) (devices w) (faults w)
          (statsCache w) t.

(** [&models.DeviceStats{...}]: the object is put in a cell no pointer
    refers to yet. *)
Definition newStats (s : DeviceStats) (w : World) : loc * World :=
  let l := fresh (dom (statsObjs w)) in
  (l, mkWorld (devObjs w) (faultObjs w) (<[l := s]> (statsObjs w))
              (devices w) (faults w) (statsCache w) (statsCacheTime w)).

Definition emptyStats (total : Z) : DeviceStats :=
  {| TotalDevices := total; OnlineDevices := 0; OfflineDevices := 0;
     DevicesByVendor := ∅; DevicesByModel := ∅;
     ActiveFaults := 0; CriticalFaults := 0 |}.

(** [GetContext]: the value the [once.Do] initialiser builds. *)
Definition GetContext : World :=
  {| devObjs := ∅; faultObjs := ∅;
     statsObjs := {[ 1%positive := emptyStats 0 ]};
     devices := ∅; faults := ∅;
     statsCache := 1%positive; statsCacheTime := zero |}.

(** [invalidateStatsCache] *)
Definition invalidateStatsCache (w : World) : World :=
  set_statsCacheTime zero w.

(** *** Device management *)

(** [AddDevice]: [device.ID] dereferences the argument. *)
Definition AddDevice (device : loc) (w : World) : option World :=
  match devObjs w !! device with
  | None => None
  | Some d =>
      Some (invalidateStatsCache
              (set_devices (<[Device_ID d := device]> (devices w)) w))
  end.

(** [GetDevice]: [Some p] is [(p, true)], [None] is [(nil, false)]. *)
Definition GetDevice (deviceID : string) (w : World) : option loc :=
  devices w !! deviceID.

(** [RemoveDevice] *)
Definition RemoveDevice (deviceID : string) (w : World) : World :=
  invalidateStatsCache (set_devices (delete deviceID (devices w)) w).

Definition set_Status (st : DeviceStatus) (d : Device) : Device :=
  mkDevice (Device_ID d) (Device_DeviceID d) (Device_LastInform d)
           (Device_LastBoot d) (Device_LastBootstrap d)
           (Device_LastRegistered d) (Device_Root d) (Device_Tags d)
           (Device_DeviceInfo d) (Device_Parameters d)
           (Device_ConnectionRequest d) st.

(** [UpdateDeviceStatus]; [c] is the reading [time.Now()] returns. *)
Definition UpdateDeviceStatus (c : Clock) (deviceID : string) (online : bool)
    (w : World) : option World :=
  match devices w !! deviceID with
  | Some device =>
      match devObjs w !! device with
      | None => None
      | Some d =>
          let st :=
            {| DeviceStatus_Online := online;
               DeviceStatus_LastSeen := Now c;
               DeviceStatus_ConnectionStatus :=
                 if online then "connected" else "disconnected";
               DeviceStatus_ErrorCount :=
                 DeviceStatus_ErrorCount (Device_Status d) |} in
          Some (invalidateStatsCache
                  (set_devObjs (<[device := set_Status st d]> (devObjs w)) w))
      end
  | None => Some w
  end.

(** *** Fault management *)

(** [AddFault] *)
Definition AddFault (fault : loc) (w : World) : option World :=
  match faultObjs w !! fault with
  | None => None
  | Some f =>
      Some (invalidateStatsCache
              (set_faults (<[Fault_ID f := fault]> (faults w)) w))
  end.

(** [GetFault] *)
Definition GetFault (faultID : string) (w : World) : option loc :=
  faults w !! faultID.

Definition acknowledged (by_ : string) (at_ : Time) (f : Fault) : Fault :=
  mkFault (Fault_ID f) (Fault_DeviceID f) (Fault_DeviceSerial f)
          (Fault_DeviceModel f) (Fault_Channel f) (Fault_Code f)
          (Fault_Message f) (Fault_Detail f) (Fault_Severity f)
          (Fault_Timestamp f) (Fault_Expiry f) (Fault_Retries f)
          FaultStatusAcknowledged by_ (Some at_)
          (Fault_ResolvedBy f) (Fault_ResolvedAt f) (Fault_Tags f).

Definition resolved (by_ : string) (at_ : Time) (f : Fault) : Fault :=
  mkFault (Fault_ID f) (Fault_DeviceID f) (Fault_DeviceSerial f)
          (Fault_DeviceModel f) (Fault_Channel f) (Fault_Code f)
          (Fault_Message f) (Fault_Detail f) (Fault_Severity f)
          (Fault_Timestamp f) (Fault_Expiry f) (Fault_Retries f)
          FaultStatusResolved (Fault_AcknowledgedBy f)
          (Fault_AcknowledgedAt f) by_ (Some at_) (Fault_Tags f).

(** [AcknowledgeFault]: the returned [error] is [None] for [nil]. *)
Definition AcknowledgeFault (c : Clock) (faultID acknowledgedBy : string)
    (w : World) : option (option error * World) :=
  match faults w !! faultID with
  | None => Some (Some ErrFaultNotFound, w)
  | Some fault =>
      match faultObjs w !! fault with
      | None => None
      | Some f =>
          let now := Now c in
          Some (None,
                invalidateStatsCache
                  (set_faultObjs
                     (<[fault := acknowledged acknowledgedBy now f]>
                        (faultObjs w)) w))
      end
  end.

(** [ResolveFault] *)
Definition ResolveFault (c : Clock) (faultID resolvedBy : string)
    (w : World) : option (option error * World) :=
  match faults w !! faultID with
  | None => Some (Some ErrFaultNotFound, w)
  | Some fault =>
      match faultObjs w !! fault with
      | None => None
      | Some f =>
          let now := Now c in
          Some (None,
                invalidateStatsCache
                  (set_faultObjs
                     (<[fault := resolved resolvedBy now f]>
                        (faultObjs w)) w))
      end
  end.

(** *** Filtering *)

(** [isIPInRange]: the placeholder of the source. *)
Definition isIPInRange (ip startIP endIP : string) : bool := true.

(** [device.Tags[tag]]: reading a missing key (or a [nil] map) gives
    [false]. *)
Definition hasTag (device : Device) (tag : string) : bool :=
  default false (Device_Tags device !! tag).

(** [matchesFilter]; [filter] is [None] for a [nil] filter.  Each test
    that fails returns [false] at once. *)
Definition matchesFilter (device : Device) (filter : option DeviceFilter)
    : bool :=
  match filter with
  | None => true
  | Some filter =>
      if match DeviceFilter_IPRange filter with
         | Some r =>
             negb (isIPInRange (DeviceID_IPAddress (Device_DeviceID device))
                               (IPRange_StartIP r) (IPRange_EndIP r))
         | None => false
         end
      then false
      else if negb (String.eqb (DeviceFilter_Manufacturer filter) "")
              && negb (String.eqb
                         (DeviceID_Manufacturer (Device_DeviceID device))
                         (DeviceFilter_Manufacturer filter))
      then false
      else if negb (String.eqb (DeviceFilter_ModelName filter) "")
              && negb (String.eqb
                         (DeviceID_ModelName (Device_DeviceID device))
                         (DeviceFilter_ModelName filter))
      then false
      else if negb (String.eqb (DeviceFilter_ProductClass filter) "")
              && negb (String.eqb
                         (DeviceID_ProductClass (Device_DeviceID device))
                         (DeviceFilter_ProductClass filter))
      then false
      else if match DeviceFilter_Online filter with
              | Some online =>
                  negb (Bool.eqb
                          (DeviceStatus_Online (Device_Status device)) online)
              | None => false
              end
      then false
      else if (0 <? Z.of_nat (length (DeviceFilter_Tags filter)))
      then forallb (hasTag device) (DeviceFilter_Tags filter)
      else true
  end.

(** The loop of [GetFilteredDevices] over the entries of the map, in the
    order the iteration visits them. *)
Fixpoint filterDevices (h : gmap loc Device) (filter : option DeviceFilter)
    (entries : list (string * loc)) (filtered : list loc)
    : option (list loc) :=
  match entries with
  | [] => Some filtered
  | (_, device) :: rest =>
      match h !! device with
      | None => None
      | Some d =>
          filterDevices h filter rest
            (if matchesFilter d filter then filtered ++ [device]
             else filtered)
      end
  end.

(** [GetFilteredDevices].  Go leaves the iteration order of a map open;
    the embedding takes the order of [map_to_list]. *)
Definition GetFilteredDevices (filter : option DeviceFilter) (w : World)
    : option (list loc) :=
  filterDevices (devObjs w) filter (map_to_list (devices w)) [].

(** *** Statistics *)

(** [m[k]++] on a [map[string]int]. *)
Definition bump (k : string) (m : gmap string Z) : gmap string Z :=
  <[k := incr (default 0 (m !! k))]> m.

Definition bucket (name : string) : string :=
  if String.eqb name "" then "Unknown" else name.

(** [device.Status.Online] *)
Definition isOnline (device : Device) : bool :=
  DeviceStatus_Online (Device_Status device).

(** [vendor := device.DeviceID.Manufacturer], replaced by ["Unknown"]
    when empty. *)
Definition vendorOf (device : Device) : string :=
  bucket (DeviceID_Manufacturer (Device_DeviceID device)).

(** [model := device.DeviceID.ModelName], replaced by ["Unknown"] when
    empty. *)
Definition modelOf (device : Device) : string :=
  bucket (DeviceID_ModelName (Device_DeviceID device)).

(** The body of the loop over the devices. *)
Definition countDevice (device : Device) (stats : DeviceStats)
    : DeviceStats :=
  {| TotalDevices := TotalDevices stats;
     OnlineDevices :=
       if isOnline device then incr (OnlineDevices stats)
       else OnlineDevices stats;
     OfflineDevices :=
       if isOnline device then OfflineDevices stats
       else incr (OfflineDevices stats);
     DevicesByVendor := bump (vendorOf device) (DevicesByVendor stats);
     DevicesByModel := bump (modelOf device) (DevicesByModel stats);
     ActiveFaults := ActiveFaults stats;
     CriticalFaults := CriticalFaults stats |}.

Definition isActive (fault : Fault) : bool :=
  String.eqb (Fault_Status fault) FaultStatusActive
  || String.eqb (Fault_Status fault) FaultStatusAcknowledged.

Definition isCritical (fault : Fault) : bool :=
  String.eqb (Fault_Severity fault) SeverityCritical.

(** The body of the loop over the faults. *)
Definition countFault (fault : Fault) (stats : DeviceStats) : DeviceStats :=
  if isActive fault then
    {| TotalDevices := TotalDevices stats;
       OnlineDevices := OnlineDevices stats;
       OfflineDevices := OfflineDevices stats;
       DevicesByVendor := DevicesByVendor stats;
       DevicesByModel := DevicesByModel stats;
       ActiveFaults := incr (ActiveFaults stats);
       CriticalFaults :=
         if isCritical fault then incr (CriticalFaults stats)
         else CriticalFaults stats |}
  else stats.

(** A [for ... range] loop over the entries of a map of pointers: every
    entry is dereferenced and handed to the loop body. *)
Fixpoint rangeLoop {A St : Type} (h : gmap loc A) (body : A → St → St)
    (entries : list (string * loc)) (s : St) : option St :=
  match entries with
  | [] => Some s
  | (_, p) :: rest =>
      match h !! p with
      | None => None
      | Some a => rangeLoop h body rest (body a s)
      end
  end.

(** The snapshot [updateStatsCache] builds when the two loops visit the
    maps in the orders [deviceOrder] and [faultOrder].  [len(c.devices)]
    is an [int]; a Go map never has more than [maxInt] entries. *)
Definition computeStatsIn (deviceOrder faultOrder : list (string * loc))
    (w : World) : option DeviceStats :=
  match rangeLoop (devObjs w) countDevice deviceOrder
                  (emptyStats (Z.of_nat (size (devices w)))) with
  | None => None
  | Some stats => rangeLoop (faultObjs w) countFault faultOrder stats
  end.

(** Go leaves the iteration order of a map open; the embedding takes the
    order of [map_to_list] ([computeStats_any_order] below shows that the
    snapshot does not depend on it). *)
Definition computeStats (w : World) : option DeviceStats :=
  computeStatsIn (map_to_list (devices w)) (map_to_list (faults w)) w.

(** [updateStatsCache]; [c] is the reading [time.Now()] returns. *)
Definition updateStatsCache (c : Clock) (w : World) : option World :=
  match computeStats w with
  | None => None
  | Some stats =>
      let '(p, w1) := newStats stats w in
      Some (mkWorld (devObjs w1) (faultObjs w1) (statsObjs w1)
                    (devices w1) (faults w1) p (Now c))
  end.

(** [GetDeviceStats]; [cSince] is the clock reading at [time.Since] and
    [cNow] the later one inside [updateStatsCache]. *)
Definition GetDeviceStats (cSince cNow : Clock) (w : World)
    : option (loc * World) :=
  if Since cSince (statsCacheTime w) <? Minute then
    Some (statsCache w, w)
  else
    match updateStatsCache cNow w with
    | None => None
    | Some w' => Some (statsCache w', w')
    end.

(** *** The mutating operations as one type of calls *)

Inductive Mutation :=
| CallAddDevice (device : loc)
| CallRemoveDevice (deviceID : string)
| CallUpdateDeviceStatus (deviceID : string) (online : bool)
| CallAddFault (fault : loc)
| CallAcknowledgeFault (faultID acknowledgedBy : string)
| CallResolveFault (faultID resolvedBy : string).

(** Running a call at the clock reading [c]: the returned [error] (where
    the method has one) and the new state. *)
Definition run (c : Clock) (m : Mutation) (w : World)
    : option (option error * World) :=
  match m with
  | CallAddDevice device => (λ w', (None, w')) <$> AddDevice device w
  | CallRemoveDevice deviceID => Some (None, RemoveDevice deviceID w)
  | CallUpdateDeviceStatus deviceID online =>
      (λ w', (None, w')) <$> UpdateDeviceStatus c deviceID online w
  | CallAddFault fault => (λ w', (None, w')) <$> AddFault fault w
  | CallAcknowledgeFault faultID acknowledgedBy =>
      AcknowledgeFault c faultID acknowledgedBy w
  | CallResolveFault faultID resolvedBy =>
      ResolveFault c faultID resolvedBy w
  end.

(** *** Well-formed states *)

(** Every pointer of a list of map entries refers to an object. *)
Definition allocated {A : Type} (h : gmap loc A)
    (entries : list (string * loc)) : bool :=
  forallb (λ e, bool_decide (is_Some (h !! e.2))) entries.

(** Every pointer stored in the two maps refers to an object. *)
Definition heap_ok (w : World) : bool :=
  allocated (devObjs w) (map_to_list (devices w))
  && allocated (faultObjs w) (map_to_list (faults w)).

(** Both maps have a length that is an [int]. *)
Definition fits_int (w : World) : bool :=
  (Z.of_nat (size (devices w)) <=? maxInt)
  && (Z.of_nat (size (faults w)) <=? maxInt).

(** The objects the two maps point to, in iteration order. *)
Definition storedDevices (w : World) : list Device :=
  omap (λ e, devObjs w !! e.2) (map_to_list (devices w)).

Definition storedFaults (w : World) : list Fault :=
  omap (λ e, faultObjs w !! e.2) (map_to_list (faults w)).

(** *** Notions the statements below are written with *)

(** How many elements of a list pass a test. *)
Fixpoint count {A : Type} (test : A → bool) (l : list A) : Z :=
  match l with
  | [] => 0
  | x :: l' => (if test x then 1 else 0) + count test l'
  end.

(** The entry of key [k] in the histogram of a list of names: absent
    when no element is [k], their number otherwise. *)
Definition histOf (names : list string) (k : string) : option Z :=
  let n := count (String.eqb k) names in
  if n =? 0 then None else Some n.

(** The sum of the values of a histogram. *)
Definition sumValues (m : gmap string Z) : Z :=
  map_fold (λ _ v acc, v + acc) 0 m.

(** Two device objects that differ at most in [Status]. *)
Definition same_but_Status (d d' : Device) : Prop :=
  Device_ID d' = Device_ID d
  ∧ Device_DeviceID d' = Device_DeviceID d
  ∧ Device_LastInform d' = Device_LastInform d
  ∧ Device_LastBoot d' = Device_LastBoot d
  ∧ Device_LastBootstrap d' = Device_LastBootstrap d
  ∧ Device_LastRegistered d' = Device_LastRegistered d
  ∧ Device_Root d' = Device_Root d
  ∧ Device_Tags d' = Device_Tags d
  ∧ Device_DeviceInfo d' = Device_DeviceInfo d
  ∧ Device_Parameters d' = Device_Parameters d
  ∧ Device_ConnectionRequest d' = Device_ConnectionRequest d.

(** A call of a mutating operation takes effect when its target exists:
    the argument of [AddDevice] / [AddFault] is a valid pointer, the
    device of [UpdateDeviceStatus] is stored, the fault of
    [AcknowledgeFault] / [ResolveFault] is stored.  [RemoveDevice] always
    takes effect. *)
Definition takes_effect (m : Mutation) (w : World) : bool :=
  match m with
  | CallAddDevice device => bool_decide (is_Some (devObjs w !! device))
  | CallRemoveDevice _ => true
  | CallUpdateDeviceStatus deviceID _ =>
      bool_decide (is_Some (devices w !! deviceID))
  | CallAddFault fault => bool_decide (is_Some (faultObjs w !! fault))
  | CallAcknowledgeFault faultID _ =>
      bool_decide (is_Some (faults w !! faultID))
  | CallResolveFault faultID _ =>
      bool_decide (is_Some (faults w !! faultID))
  end.

End context.

(** ** The two HTTP handlers that acknowledge a fault

    Of a handler only the decisions are kept: which status it answers with
    and what it does to the context.  The request is the path parameter
    [faultId] and the decoded JSON body, [None] when [ShouldBindJSON]
    fails. *)

Module http.

Definition StatusOK : Z := 200.
Definition StatusBadRequest : Z := 400.
Definition StatusNotFound : Z := 404.
Definition StatusInternalServerError : Z := 500.

(** The body of an acknowledge request. *)
Record AcknowledgeRequest := mkAcknowledgeRequest {
  AcknowledgedBy : string;
  Notes : string
}.

End http.

(** [internal/sbi/producer] *)

Module producer.

Import time models context http.

(** [AcknowledgeFault]; the field [acknowledgedBy] is [binding:"required"],
    so decoding fails when it is empty. *)
Definition AcknowledgeFault (c : Clock) (faultID : string)
    (body : option AcknowledgeRequest) (w : World) : option (Z * World) :=
  if String.eqb faultID "" then Some (StatusBadRequest, w)
  else
    match body with
    | None => Some (StatusBadRequest, w)
    | Some req =>
        if String.eqb (AcknowledgedBy req) "" then Some (StatusBadRequest, w)
        else
          match GetFault faultID w with
          | None => Some (StatusNotFound, w)
          | Some fault =>
              match faultObjs w !! fault with
              | None => None
              | Some f =>
                  if String.eqb (Fault_Status f) FaultStatusAcknowledged
                  then Some (StatusBadRequest, w)
                  else if String.eqb (Fault_Status f) FaultStatusResolved
                  then Some (StatusBadRequest, w)
                  else
                    match context.AcknowledgeFault
                            c faultID (AcknowledgedBy req) w with
                    | None => None
                    | Some (Some _, w') =>
                        Some (StatusInternalServerError, w')
                    | Some (None, w') => Some (StatusOK, w')
                    end
              end
          end
    end.

End producer.

(** [internal/web/handlers] *)

Module handlers.

Import time models context http.

(** [AcknowledgeFault]: no field of the body is required, and the state
    of the fault is not looked at. *)
Definition AcknowledgeFault (c : Clock) (faultID : string)
    (body : option AcknowledgeRequest) (w : World) : option (Z * World) :=
  if String.eqb faultID "" then Some (StatusBadRequest, w)
  else
    match body with
    | None => Some (StatusBadRequest, w)
    | Some req =>
        match context.AcknowledgeFault c faultID (AcknowledgedBy req) w with
        | None => None
        | Some (Some _, w') => Some (StatusInternalServerError, w')
        | Some (None, w') => Some (StatusOK, w')
        end
    end.

End handlers.

(** ** Concrete states used in the examples *)

Module examples.

Import time models goint context.

Definition deviceID (manufacturer modelName : string) : DeviceID :=
  {| DeviceID_Manufacturer := manufacturer; DeviceID_OUI := "";
     DeviceID_ProductClass := ""; DeviceID_SerialNumber := "";
     DeviceID_DeviceIDString := ""; DeviceID_HardwareVersion := "";
     DeviceID_SoftwareVersion := ""; DeviceID_ModelName := modelName;
     DeviceID_ProvisioningCode := ""; DeviceID_ManufacturerOUI := "";
     DeviceID_ExternalIPAddress := ""; DeviceID_IPAddress := "" |}.

Definition device (id manufacturer modelName : string) (online : bool)
    (tags : gmap string bool) : Device :=
  {| Device_ID := id; Device_DeviceID := deviceID manufacturer modelName;
     Device_LastInform := zero; Device_LastBoot := zero;
     Device_LastBootstrap := zero; Device_LastRegistered := zero;
     Device_Root := ""; Device_Tags := tags; Device_DeviceInfo := ∅;
     Device_Parameters := ∅;
     Device_ConnectionRequest := mkConnectionRequest "" "" "";
     Device_Status :=
       {| DeviceStatus_Online := online; DeviceStatus_LastSeen := zero;
          DeviceStatus_ConnectionStatus := "";
          DeviceStatus_ErrorCount := 7 |} |}.

Definition fault (id severity status acknowledgedBy resolvedBy : string)
    : Fault :=
  {| Fault_ID := id; Fault_DeviceID := "d1"; Fault_DeviceSerial := "";
     Fault_DeviceModel := ""; Fault_Channel := ""; Fault_Code := "";
     Fault_Message := ""; Fault_Detail := ""; Fault_Severity := severity;
     Fault_Timestamp := zero; Fault_Expiry := None; Fault_Retries := 0;
     Fault_Status := status; Fault_AcknowledgedBy := acknowledgedBy;
     Fault_AcknowledgedAt := None; Fault_ResolvedBy := resolvedBy;
     Fault_ResolvedAt := None; Fault_Tags := [] |}.

(** The wall clock of 2024-01-01T00:00:00Z, in nanoseconds from the zero
    [Time], and clock readings a number of seconds later. *)
Definition wall2024 : Z := 63839664000 * Second.

Definition clockAt (seconds : Z) : Clock :=
  {| wallClock := wall2024 + seconds * Second;
     monoClock := seconds * Second |}.

(** The objects the callers have allocated: three devices, a fourth one
    with the identifier of the first and no tags, one with an empty
    identifier, and four faults. *)
Definition objects : World :=
  {| devObjs :=
       {[ 1%positive := device "d1" "Acme" "X1" true {[ "x" := true ]};
          2%positive := device "d2" "Acme" "" true ∅;
          3%positive := device "d3" "" "X1" false ∅;
          4%positive := device "d1" "Bolt" "B2" false ∅;
          5%positive := device "" "Acme" "X1" true ∅ ]};
     faultObjs :=
       {[ 1%positive := fault "f1" SeverityCritical FaultStatusActive "" "";
          2%positive := fault "f2" SeverityMinor FaultStatusResolved
                              "" "carol";
          3%positive := fault "f3" SeverityMajor FaultStatusAcknowledged
                              "alice" "" ]};
     statsObjs := statsObjs GetContext;
     devices := ∅; faults := ∅;
     statsCache := statsCache GetContext;
     statsCacheTime := statsCacheTime GetContext |}.

Definition orElse (w : World) (r : option World) : World := default w r.

(** Three devices (two online, one offline) and two faults (one critical
    and active, one minor and resolved) have been inserted. *)
Definition populated : World :=
  let w1 := orElse objects (AddDevice 1%positive objects) in
  let w2 := orElse w1 (AddDevice 2%positive w1) in
  let w3 := orElse w2 (AddDevice 3%positive w2) in
  let w4 := orElse w3 (AddFault 1%positive w3) in
  orElse w4 (AddFault 2%positive w4).

(** [populated] after a [GetDeviceStats] at second 0, which computes the
    snapshot. *)
Definition cached : World :=
  match GetDeviceStats (clockAt 0) (clockAt 0) populated with
  | Some (_, w) => w
  | None => populated
  end.

(** [cached] after the device "d1" has gone offline at second 10. *)
Definition offline : World :=
  orElse cached (UpdateDeviceStatus (clockAt 10) "d1" false cached).

(** [populated] with the acknowledged fault [f3] inserted as well. *)
Definition withAcknowledged : World :=
  orElse populated (AddFault 3%positive populated).

Definition acmeFilter : DeviceFilter :=
  {| DeviceFilter_IPRange := Some (mkIPRange "10.0.0.1" "10.0.0.9");
     DeviceFilter_Manufacturer := "Acme"; DeviceFilter_ModelName := "";
     DeviceFilter_ProductClass := ""; DeviceFilter_Tags := [];
     DeviceFilter_Online := Some true; DeviceFilter_Search := "";
     DeviceFilter_Pagination := None |}.

End examples.

(** * Properties *)

Import time models goint context.

(** ** Arithmetic of [int] and of the clock *)

Lemma incr_exact (x : Z) : minInt ≤ x → x < maxInt → incr x = x + 1.
Proof.
  unfold incr, wrap, minInt, maxInt. intros Hlo Hhi.
  rewrite Z.mod_small; lia.
Qed.

Lemma Since_zero (c : Clock) : Minute ≤ wallClock c → Minute ≤ Since c zero.
Proof.
  unfold Since, zero, saturate, minDuration, maxDuration, Minute, Second,
    Nanosecond; simpl.
  lia.
Qed.

(** ** Counting *)

Lemma count_nonneg {A} (test : A → bool) (l : list A) : 0 ≤ count test l.
Proof. induction l as [|x l IH]; simpl; [lia | destruct (test x); lia]. Qed.

Lemma count_le_length {A} (test : A → bool) (l : list A) :
  count test l ≤ Z.of_nat (length l).
Proof. induction l as [|x l IH]; simpl; [lia | destruct (test x); lia]. Qed.

Lemma count_app {A} (test : A → bool) (l1 l2 : list A) :
  count test (l1 ++ l2) = count test l1 + count test l2.
Proof. induction l1 as [|x l1 IH]; simpl; lia. Qed.

Lemma count_filter {A} (test : A → bool) (l : list A) :
  count test l = Z.of_nat (length (List.filter test l)).
Proof.
  induction l as [|x l IH]; simpl; [done|].
  destruct (test x); simpl; lia.
Qed.

Lemma count_split {A} (test : A → bool) (l : list A) :
  count test l + count (λ x, negb (test x)) l = Z.of_nat (length l).
Proof. induction l as [|x l IH]; simpl; [lia | destruct (test x); simpl; lia]. Qed.

Lemma count_and_le {A} (t1 t2 : A → bool) (l : list A) :
  count (λ x, t1 x && t2 x) l ≤ count t1 l.
Proof.
  induction l as [|x l IH]; simpl; [lia|].
  destruct (t1 x), (t2 x); simpl; lia.
Qed.

Lemma count_Permutation {A} (test : A → bool) (l1 l2 : list A) :
  l1 ≡ₚ l2 → count test l1 = count test l2.
Proof. induction 1; simpl; lia. Qed.

Lemma count_zero_iff (k : string) (names : list string) :
  count (String.eqb k) names = 0 ↔ k ∉ names.
Proof.
  induction names as [|x names IH]; simpl.
  - split; [intros _; apply not_elem_of_nil | done].
  - rewrite not_elem_of_cons. pose proof (count_nonneg (String.eqb k) names).
    destruct (String.eqb k x) eqn:E.
    + apply String.eqb_eq in E. split; [lia | intros [? _]; done].
    + apply String.eqb_neq in E. rewrite Z.add_0_l, IH. tauto.
Qed.

Lemma histOf_Permutation (l1 l2 : list string) (k : string) :
  l1 ≡ₚ l2 → histOf l1 k = histOf l2 k.
Proof. intros H. unfold histOf. by rewrite (count_Permutation _ _ _ H). Qed.

Lemma histOf_default (names : list string) (k : string) :
  default 0 (histOf names k) = count (String.eqb k) names.
Proof.
  unfold histOf. destruct (Z.eqb_spec (count (String.eqb k) names) 0); simpl; lia.
Qed.

(** ** Histograms *)

Lemma sumValues_empty : sumValues ∅ = 0.
Proof. apply map_fold_empty. Qed.

Lemma sumValues_insert (k : string) (v : Z) (m : gmap string Z) :
  sumValues (<[k := v]> m) = sumValues m - default 0 (m !! k) + v.
Proof.
  unfold sumValues.
  assert (Hfresh : ∀ (u : Z) (m' : gmap string Z), m' !! k = None →
            map_fold (λ _ x acc, x + acc) 0 (<[k := u]> m')
            = u + map_fold (λ _ x acc, x + acc) 0 m').
  { intros u m' Hm'. apply (map_fold_insert_L (λ _ x acc, x + acc)); [|done].
    intros; lia. }
  destruct (m !! k) as [old|] eqn:Hk; simpl.
  - rewrite <- (insert_delete_eq m k v).
    rewrite <- (insert_delete_id m k old Hk) at 2.
    rewrite !Hfresh by apply lookup_delete_eq. lia.
  - rewrite Hfresh by done. lia.
Qed.

Section Bump.

Context {A : Type} (key : A → string).

(** One more element in the histogram of the elements seen so far. *)
Lemma bump_histOf (seen : list A) (a : A) (m : gmap string Z) :
  (∀ k, m !! k = histOf (key <$> seen) k) →
  Z.of_nat (length seen) < maxInt →
  ∀ k, bump (key a) m !! k = histOf (key <$> (seen ++ [a])) k.
Proof.
  intros Hm Hlen k. unfold bump.
  pose proof (count_nonneg (String.eqb (key a)) (key <$> seen)) as H0.
  pose proof (count_le_length (String.eqb (key a)) (key <$> seen)) as H1.
  rewrite length_fmap in H1.
  rewrite (Hm (key a)), histOf_default.
  rewrite incr_exact by (unfold minInt; lia).
  unfold histOf. rewrite fmap_app, count_app. simpl.
  destruct (decide (key a = k)) as [->|Hne].
  - rewrite lookup_insert_eq, String.eqb_refl.
    pose proof (count_nonneg (String.eqb k) (key <$> seen)).
    destruct (Z.eqb_spec (count (String.eqb k) (key <$> seen) + (1 + 0)) 0);
      [lia | f_equal; lia].
  - rewrite lookup_insert_ne by done.
    assert (String.eqb k (key a) = false) as ->
      by (apply String.eqb_neq; congruence).
    rewrite Hm. unfold histOf. by rewrite !Z.add_0_r.
Qed.

Lemma bump_fold_histOf (l seen : list A) (m : gmap string Z) :
  (∀ k, m !! k = histOf (key <$> seen) k) →
  Z.of_nat (length seen + length l) ≤ maxInt →
  ∀ k, foldl (λ m a, bump (key a) m) m l !! k = histOf (key <$> (seen ++ l)) k.
Proof.
  revert seen m. induction l as [|a l IH]; intros seen m Hm Hlen k; simpl.
  - by rewrite app_nil_r.
  - rewrite (IH (seen ++ [a])).
    + by rewrite <- app_assoc.
    + apply bump_histOf; [done | simpl in Hlen; lia].
    + rewrite length_app. simpl in *. lia.
Qed.

Lemma bump_fold_sum (l seen : list A) (m : gmap string Z) :
  (∀ k, m !! k = histOf (key <$> seen) k) →
  Z.of_nat (length seen + length l) ≤ maxInt →
  sumValues (foldl (λ m a, bump (key a) m) m l)
  = sumValues m + Z.of_nat (length l).
Proof.
  revert seen m. induction l as [|a l IH]; intros seen m Hm Hlen; simpl.
  - lia.
  - rewrite (IH (seen ++ [a])).
    + unfold bump. rewrite sumValues_insert.
      pose proof (count_nonneg (String.eqb (key a)) (key <$> seen)) as H0.
      pose proof (count_le_length (String.eqb (key a)) (key <$> seen)) as H1.
      rewrite length_fmap in H1.
      rewrite (Hm (key a)), histOf_default.
      rewrite incr_exact by (unfold minInt; simpl in Hlen; lia). lia.
    + apply bump_histOf; [done | simpl in Hlen; lia].
    + rewrite length_app. simpl in *. lia.
Qed.

End Bump.

(** ** Loops over a map of pointers *)

Section RangeLoop.

Context {A St : Type} (h : gmap loc A) (body : A → St → St).

Lemma rangeLoop_foldl (entries : list (string * loc)) (s : St) :
  allocated h entries = true →
  rangeLoop h body entries s
  = Some (foldl (λ s a, body a s) s (omap (λ e, h !! e.2) entries)).
Proof.
  revert s. induction entries as [|[k p] entries IH]; intros s Hok; simpl.
  - done.
  - simpl in Hok. apply andb_true_iff in Hok as [Hp Hok].
    apply bool_decide_eq_true in Hp as [a Ha]. simpl in Ha.
    rewrite Ha. simpl. by apply IH.
Qed.

Lemma allocated_length (entries : list (string * loc)) :
  allocated h entries = true →
  length (omap (λ e, h !! e.2) entries) = length entries.
Proof.
  induction entries as [|[k p] entries IH]; intros Hok; simpl; [done|].
  simpl in Hok. apply andb_true_iff in Hok as [Hp Hok].
  apply bool_decide_eq_true in Hp as [a Ha]. simpl in Ha.
  rewrite Ha. simpl. f_equal. by apply IH.
Qed.

Lemma allocated_Permutation (l1 l2 : list (string * loc)) :
  l1 ≡ₚ l2 → allocated h l1 = true → allocated h l2 = true.
Proof.
  unfold allocated. intros Hp H.
  apply Is_true_true, forallb_True. apply Is_true_true, forallb_True in H.
  by rewrite <- Hp.
Qed.

End RangeLoop.

(** ** The two counting loops *)

Lemma countDevice_fold (ds : list Device) (s : DeviceStats) :
  0 ≤ OnlineDevices s → 0 ≤ OfflineDevices s →
  OnlineDevices s + Z.of_nat (length ds) ≤ maxInt →
  OfflineDevices s + Z.of_nat (length ds) ≤ maxInt →
  let s' := foldl (λ s d, countDevice d s) s ds in
  TotalDevices s' = TotalDevices s
  ∧ OnlineDevices s' = OnlineDevices s + count isOnline ds
  ∧ OfflineDevices s' = OfflineDevices s + count (λ d, negb (isOnline d)) ds
  ∧ DevicesByVendor s'
    = foldl (λ m d, bump (vendorOf d) m) (DevicesByVendor s) ds
  ∧ DevicesByModel s'
    = foldl (λ m d, bump (modelOf d) m) (DevicesByModel s) ds
  ∧ ActiveFaults s' = ActiveFaults s
  ∧ CriticalFaults s' = CriticalFaults s.
Proof.
  revert s. induction ds as [|d ds IH]; intros s Hon Hoff Hon' Hoff'; simpl.
  - repeat split; lia.
  - simpl in Hon', Hoff'.
    destruct (IH (countDevice d s)) as (HT & HOn & HOff & HV & HM & HA & HC).
    + simpl. destruct (isOnline d); [rewrite incr_exact|]; unfold minInt; lia.
    + simpl. destruct (isOnline d); [|rewrite incr_exact]; unfold minInt; lia.
    + simpl. destruct (isOnline d); [rewrite incr_exact|]; unfold minInt; lia.
    + simpl. destruct (isOnline d); [|rewrite incr_exact]; unfold minInt; lia.
    + rewrite HT, HOn, HOff, HV, HM, HA, HC. simpl.
      repeat split; try done.
      * destruct (isOnline d); [rewrite incr_exact|]; unfold minInt; lia.
      * destruct (isOnline d); simpl; [|rewrite incr_exact]; unfold minInt; lia.
Qed.

Lemma countFault_fold (fs : list Fault) (s : DeviceStats) :
  0 ≤ ActiveFaults s → 0 ≤ CriticalFaults s →
  ActiveFaults s + Z.of_nat (length fs) ≤ maxInt →
  CriticalFaults s + Z.of_nat (length fs) ≤ maxInt →
  let s' := foldl (λ s f, countFault f s) s fs in
  TotalDevices s' = TotalDevices s
  ∧ OnlineDevices s' = OnlineDevices s
  ∧ OfflineDevices s' = OfflineDevices s
  ∧ DevicesByVendor s' = DevicesByVendor s
  ∧ DevicesByModel s' = DevicesByModel s
  ∧ ActiveFaults s' = ActiveFaults s + count isActive fs
  ∧ CriticalFaults s'
    = CriticalFaults s + count (λ f, isActive f && isCritical f) fs.
Proof.
  revert s. induction fs as [|f fs IH]; intros s Ha Hc Ha' Hc'; simpl.
  - repeat split; lia.
  - simpl in Ha', Hc'.
    assert (Hstep : ActiveFaults (countFault f s)
                    = ActiveFaults s + (if isActive f then 1 else 0)
                    ∧ CriticalFaults (countFault f s)
                      = CriticalFaults s
                        + (if isActive f && isCritical f then 1 else 0)
                    ∧ TotalDevices (countFault f s) = TotalDevices s
                    ∧ OnlineDevices (countFault f s) = OnlineDevices s
                    ∧ OfflineDevices (countFault f s) = OfflineDevices s
                    ∧ DevicesByVendor (countFault f s) = DevicesByVendor s
                    ∧ DevicesByModel (countFault f s) = DevicesByModel s).
    { unfold countFault. destruct (isActive f); simpl.
      - rewrite incr_exact by (unfold minInt; lia).
        destruct (isCritical f); [rewrite incr_exact by (unfold minInt; lia)|];
          repeat split; lia.
      - repeat split; lia. }
    destruct Hstep as (SA & SC & ST & SOn & SOff & SV & SM).
    destruct (IH (countFault f s)) as (HT & HOn & HOff & HV & HM & HA & HC).
    + rewrite SA. destruct (isActive f); lia.
    + rewrite SC. destruct (isActive f && isCritical f); lia.
    + rewrite SA. destruct (isActive f); lia.
    + rewrite SC. destruct (isActive f && isCritical f); lia.
    + rewrite HT, HOn, HOff, HV, HM, HA, HC, SA, SC, ST, SOn, SOff, SV, SM.
      repeat split; try done; lia.
Qed.

(** ** Well-formed states *)

Lemma allocated_map_Forall {A} (h : gmap loc A) (m : gmap string loc) :
  allocated h (map_to_list m) = true
  ↔ map_Forall (λ _ p, is_Some (h !! p)) m.
Proof.
  unfold allocated. rewrite map_Forall_to_list.
  rewrite <- Is_true_true, forallb_True.
  apply Forall_proper; [|done]. intros [k p]. simpl.
  by rewrite bool_decide_spec.
Qed.

Lemma heap_ok_spec (w : World) :
  heap_ok w = true
  ↔ map_Forall (λ _ p, is_Some (devObjs w !! p)) (devices w)
    ∧ map_Forall (λ _ p, is_Some (faultObjs w !! p)) (faults w).
Proof.
  unfold heap_ok. by rewrite andb_true_iff, !allocated_map_Forall.
Qed.

Lemma heap_ok_device (w : World) (k : string) (p : loc) :
  heap_ok w = true → devices w !! k = Some p → is_Some (devObjs w !! p).
Proof. intros [H _]%heap_ok_spec Hk. exact (H k p Hk). Qed.

Lemma heap_ok_fault (w : World) (k : string) (p : loc) :
  heap_ok w = true → faults w !! k = Some p → is_Some (faultObjs w !! p).
Proof. intros [_ H]%heap_ok_spec Hk. exact (H k p Hk). Qed.

Lemma map_Forall_allocated_insert {A} (h : gmap loc A) (m : gmap string loc)
    (p : loc) (a : A) :
  map_Forall (λ _ q, is_Some (h !! q)) m →
  map_Forall (λ _ q, is_Some (<[p := a]> h !! q)) m.
Proof.
  intros H k q Hk. specialize (H k q Hk). simpl in *.
  destruct (decide (p = q)) as [->|Hne].
  - rewrite lookup_insert_eq. eauto.
  - by rewrite lookup_insert_ne.
Qed.

(** Every mutating operation keeps the state well formed. *)
Lemma run_heap_ok (c : Clock) (m : Mutation) (w w' : World)
    (e : option error) :
  heap_ok w = true → run c m w = Some (e, w') → heap_ok w' = true.
Proof.
  rewrite !heap_ok_spec. intros [Hd Hf] Hrun.
  destruct m as [p|id|id online|p|id who|id who]; simpl in Hrun.
  - unfold AddDevice in Hrun. destruct (devObjs w !! p) as [d|] eqn:Hp;
      simplify_eq/=. split; [|done].
    apply map_Forall_insert_2; [by rewrite Hp | done].
  - simplify_eq/=. split; [|done]. by apply map_Forall_delete.
  - unfold UpdateDeviceStatus in Hrun.
    destruct (devices w !! id) as [p|]; [|by simplify_eq/=].
    destruct (devObjs w !! p) as [d|]; simplify_eq/=.
    split; [|done]. by apply map_Forall_allocated_insert.
  - unfold AddFault in Hrun. destruct (faultObjs w !! p) as [f|] eqn:Hp;
      simplify_eq/=. split; [done|].
    apply map_Forall_insert_2; [by rewrite Hp | done].
  - unfold AcknowledgeFault in Hrun.
    destruct (faults w !! id) as [p|]; [|by simplify_eq/=].
    destruct (faultObjs w !! p) as [f|]; simplify_eq/=.
    split; [done|]. by apply map_Forall_allocated_insert.
  - unfold ResolveFault in Hrun.
    destruct (faults w !! id) as [p|]; [|by simplify_eq/=].
    destruct (faultObjs w !! p) as [f|]; simplify_eq/=.
    split; [done|]. by apply map_Forall_allocated_insert.
Qed.

Lemma GetContext_heap_ok : heap_ok GetContext = true.
Proof. reflexivity. Qed.

(** ** The snapshot *)

Lemma storedDevices_length (w : World) :
  heap_ok w = true → length (storedDevices w) = size (devices w).
Proof.
  intros [H _]%andb_true_iff. unfold storedDevices.
  by rewrite allocated_length, length_map_to_list.
Qed.

Lemma storedFaults_length (w : World) :
  heap_ok w = true → length (storedFaults w) = size (faults w).
Proof.
  intros [_ H]%andb_true_iff. unfold storedFaults.
  by rewrite allocated_length, length_map_to_list.
Qed.

(** Whatever order the two loops visit the maps in, the snapshot holds the
    exact counts and histograms of the stored objects. *)
Lemma computeStatsIn_exact (w : World)
    (deviceOrder faultOrder : list (string * loc)) :
  heap_ok w = true → fits_int w = true →
  deviceOrder ≡ₚ map_to_list (devices w) →
  faultOrder ≡ₚ map_to_list (faults w) →
  ∃ stats,
    computeStatsIn deviceOrder faultOrder w = Some stats
    ∧ TotalDevices stats = Z.of_nat (size (devices w))
    ∧ OnlineDevices stats = count isOnline (storedDevices w)
    ∧ OfflineDevices stats = count (λ d, negb (isOnline d)) (storedDevices w)
    ∧ (∀ k, DevicesByVendor stats !! k
            = histOf (vendorOf <$> storedDevices w) k)
    ∧ (∀ k, DevicesByModel stats !! k
            = histOf (modelOf <$> storedDevices w) k)
    ∧ sumValues (DevicesByVendor stats) = Z.of_nat (size (devices w))
    ∧ sumValues (DevicesByModel stats) = Z.of_nat (size (devices w))
    ∧ ActiveFaults stats = count isActive (storedFaults w)
    ∧ CriticalFaults stats
      = count (λ f, isActive f && isCritical f) (storedFaults w).
Proof.
  intros Hok Hfit Hpd Hpf.
  pose proof (storedDevices_length w Hok) as Hlend.
  pose proof (storedFaults_length w Hok) as Hlenf.
  apply andb_true_iff in Hok as [Hokd Hokf].
  apply andb_true_iff in Hfit as [Hfd Hff].
  apply Z.leb_le in Hfd, Hff.
  symmetry in Hpd, Hpf.
  pose proof (allocated_Permutation _ _ _ Hpd Hokd) as Hokd'.
  pose proof (allocated_Permutation _ _ _ Hpf Hokf) as Hokf'.
  set (ds := omap (λ e, devObjs w !! e.2) deviceOrder).
  set (fs := omap (λ e, faultObjs w !! e.2) faultOrder).
  assert (Hds : ds ≡ₚ storedDevices w)
    by (unfold ds, storedDevices; by rewrite Hpd).
  assert (Hfs : fs ≡ₚ storedFaults w)
    by (unfold fs, storedFaults; by rewrite Hpf).
  assert (Hlds : length ds = size (devices w))
    by (by rewrite Hds).
  assert (Hlfs : length fs = size (faults w))
    by (by rewrite Hfs).
  unfold computeStatsIn.
  rewrite (rangeLoop_foldl _ _ _ _ Hokd'). fold ds.
  rewrite (rangeLoop_foldl _ _ _ _ Hokf'). fold fs.
  set (s0 := emptyStats (Z.of_nat (size (devices w)))).
  destruct (countDevice_fold ds s0)
    as (HT & HOn & HOff & HV & HM & HA & HC); simpl; try lia.
  set (s1 := foldl (λ s d, countDevice d s) s0 ds) in *.
  destruct (countFault_fold fs s1)
    as (HT' & HOn' & HOff' & HV' & HM' & HA' & HC');
    rewrite ?HA, ?HC; simpl; try lia.
  set (s2 := foldl (λ s f, countFault f s) s1 fs) in *.
  exists s2. rewrite HT', HOn', HOff', HV', HM', HA', HC'.
  rewrite HT, HOn, HOff, HV, HM, HA, HC. simpl.
  assert (Hempty : ∀ (key : Device → string) k,
            (∅ : gmap string Z) !! k = histOf (key <$> []) k) by done.
  split_and!; try done.
  - by rewrite (count_Permutation _ _ _ Hds).
  - by rewrite (count_Permutation _ _ _ Hds).
  - intros k. rewrite (bump_fold_histOf vendorOf ds [] ∅ (Hempty _));
      [|simpl; lia].
    simpl. apply histOf_Permutation. by rewrite Hds.
  - intros k. rewrite (bump_fold_histOf modelOf ds [] ∅ (Hempty _));
      [|simpl; lia].
    simpl. apply histOf_Permutation. by rewrite Hds.
  - rewrite (bump_fold_sum vendorOf ds [] ∅ (Hempty _)); [|simpl; lia].
    rewrite sumValues_empty. lia.
  - rewrite (bump_fold_sum modelOf ds [] ∅ (Hempty _)); [|simpl; lia].
    rewrite sumValues_empty. lia.
  - rewrite (count_Permutation _ _ _ Hfs). lia.
  - rewrite (count_Permutation _ _ _ Hfs). lia.
Qed.

Lemma computeStats_exact (w : World) :
  heap_ok w = true → fits_int w = true →
  ∃ stats,
    computeStats w = Some stats
    ∧ TotalDevices stats = Z.of_nat (size (devices w))
    ∧ OnlineDevices stats = count isOnline (storedDevices w)
    ∧ OfflineDevices stats = count (λ d, negb (isOnline d)) (storedDevices w)
    ∧ (∀ k, DevicesByVendor stats !! k
            = histOf (vendorOf <$> storedDevices w) k)
    ∧ (∀ k, DevicesByModel stats !! k
            = histOf (modelOf <$> storedDevices w) k)
    ∧ sumValues (DevicesByVendor stats) = Z.of_nat (size (devices w))
    ∧ sumValues (DevicesByModel stats) = Z.of_nat (size (devices w))
    ∧ ActiveFaults stats = count isActive (storedFaults w)
    ∧ CriticalFaults stats
      = count (λ f, isActive f && isCritical f) (storedFaults w).
Proof. intros Hok Hfit. by apply computeStatsIn_exact. Qed.

(** The snapshot does not depend on the order in which the two loops visit
    the maps. *)
Lemma computeStats_any_order (w : World)
    (deviceOrder faultOrder : list (string * loc)) :
  heap_ok w = true → fits_int w = true →
  deviceOrder ≡ₚ map_to_list (devices w) →
  faultOrder ≡ₚ map_to_list (faults w) →
  computeStatsIn deviceOrder faultOrder w = computeStats w.
Proof.
  intros Hok Hfit Hpd Hpf.
  destruct (computeStatsIn_exact w _ _ Hok Hfit Hpd Hpf)
    as (s & -> & HT & HOn & HOff & HV & HM & _ & _ & HA & HC).
  destruct (computeStats_exact w Hok Hfit)
    as (s' & -> & HT' & HOn' & HOff' & HV' & HM' & _ & _ & HA' & HC').
  f_equal. destruct s, s'; simpl in *. f_equal; try congruence.
  - apply map_eq. intros k. by rewrite HV, HV'.
  - apply map_eq. intros k. by rewrite HM, HM'.
Qed.

(** Under [heap_ok] alone the snapshot is computed without a panic. *)
Lemma computeStats_total (w : World) :
  heap_ok w = true → is_Some (computeStats w).
Proof.
  intros [Hd Hf]%andb_true_iff. unfold computeStats, computeStatsIn.
  rewrite (rangeLoop_foldl _ _ _ _ Hd), (rangeLoop_foldl _ _ _ _ Hf). eauto.
Qed.

Lemma updateStatsCache_spec (c : Clock) (w : World) (stats : DeviceStats) :
  computeStats w = Some stats →
  ∃ w',
    updateStatsCache c w = Some w'
    ∧ statsCache w' = fresh (dom (statsObjs w))
    ∧ statsObjs w !! statsCache w' = None
    ∧ statsObjs w' = <[statsCache w' := stats]> (statsObjs w)
    ∧ statsCacheTime w' = Now c
    ∧ devices w' = devices w ∧ faults w' = faults w
    ∧ devObjs w' = devObjs w ∧ faultObjs w' = faultObjs w.
Proof.
  intros Hs. unfold updateStatsCache. rewrite Hs. simpl.
  eexists. split; [done|]. simpl. split_and!; try done.
  apply not_elem_of_dom, is_fresh.
Qed.

(** ** The registry store *)

(** C3. For every device D, whatever the store held before (a device under
    the same identifier included), [AddDevice] of D succeeds and right after
    it [GetDevice (D.ID)] returns the pointer to D with [true]; the object
    read through that pointer is exactly D, and no stored object was
    modified, so nothing of a previous device under that identifier is
    merged into it. *)
Theorem AddDevice_GetDevice (w : World) (device : loc) (D : Device) :
  devObjs w !! device = Some D →
  ∃ w',
    AddDevice device w = Some w'
    ∧ GetDevice (Device_ID D) w' = Some device
    ∧ devObjs w' !! device = Some D
    ∧ devObjs w' = devObjs w.
Proof.
  intros HD. unfold AddDevice. rewrite HD.
  eexists. split; [done|]. unfold GetDevice. simpl.
  split_and!; [apply lookup_insert_eq | done | done].
Qed.

(** In the state [populated] the identifier "d1" holds a device tagged
    "x"; inserting the untagged device of the same identifier leaves no
    tag. *)
Lemma AddDevice_GetDevice_witness :
  devObjs examples.populated !! 4%positive
  = Some (examples.device "d1" "Bolt" "B2" false ∅)
  ∧ GetDevice "d1" examples.populated = Some 1%positive
  ∧ Device_Tags <$> devObjs examples.populated !! 1%positive
    = Some {[ "x" := true ]}
  ∧ ∃ w',
      AddDevice 4%positive examples.populated = Some w'
      ∧ GetDevice "d1" w' = Some 4%positive
      ∧ devObjs w' !! 4%positive
        = Some (examples.device "d1" "Bolt" "B2" false ∅)
      ∧ Device_Tags <$> devObjs w' !! 4%positive = Some ∅.
Proof.
  split; [reflexivity|]. split; [reflexivity|]. split; [reflexivity|].
  destruct (AddDevice_GetDevice examples.populated 4%positive
              (examples.device "d1" "Bolt" "B2" false ∅) eq_refl)
    as (w' & Hadd & Hget & Hobj & _).
  exists w'. split_and!; try done.
  exact (f_equal (fmap Device_Tags) Hobj).
Defined.

(** C8, as the code has it. [AddDevice] validates nothing: for every device,
    whether its identifier is empty or not, it stores the pointer under that
    identifier (inserting or replacing) and resets the cache timestamp; all
    the rest of the state is unchanged. *)
Theorem AddDevice_no_validation (w : World) (device : loc) (D : Device) :
  devObjs w !! device = Some D →
  ∃ w',
    AddDevice device w = Some w'
    ∧ devices w' = <[Device_ID D := device]> (devices w)
    ∧ statsCacheTime w' = zero
    ∧ devObjs w' = devObjs w ∧ faultObjs w' = faultObjs w
    ∧ faults w' = faults w
    ∧ statsObjs w' = statsObjs w ∧ statsCache w' = statsCache w.
Proof.
  intros HD. unfold AddDevice. rewrite HD.
  eexists. split; [done|]. simpl. by split_and!.
Qed.

Lemma AddDevice_no_validation_witness :
  devObjs examples.populated !! 5%positive
  = Some (examples.device "" "Acme" "X1" true ∅)
  ∧ ∃ w',
      AddDevice 5%positive examples.populated = Some w'
      ∧ devices w' = <["" := 5%positive]> (devices examples.populated)
      ∧ statsCacheTime w' = zero
      ∧ devObjs w' = devObjs examples.populated
      ∧ faultObjs w' = faultObjs examples.populated
      ∧ faults w' = faults examples.populated
      ∧ statsObjs w' = statsObjs examples.populated
      ∧ statsCache w' = statsCache examples.populated.
Proof.
  split; [reflexivity|].
  apply (AddDevice_no_validation examples.populated 5%positive
           (examples.device "" "Acme" "X1" true ∅)).
  reflexivity.
Defined.

(** C8, as stated, fails: a device whose identifier is the empty string is
    stored, under the empty key, and found there afterwards. *)
Lemma AddDevice_empty_ID_is_stored :
  Device_ID <$> devObjs examples.populated !! 5%positive = Some ""
  ∧ GetDevice "" examples.populated = None
  ∧ ∃ w',
      AddDevice 5%positive examples.populated = Some w'
      ∧ GetDevice "" w' = Some 5%positive
      ∧ size (devices w') = S (size (devices examples.populated)).
Proof.
  split; [reflexivity|]. split; [reflexivity|].
  eexists. split; [reflexivity|]. split; reflexivity.
Qed.

(** C9. [UpdateDeviceStatus id online] on a stored device writes the online
    flag, the last-seen time (now) and the connection-status string
    ("connected" when online, "disconnected" otherwise) of that device's
    object and resets the cache timestamp; the error count and every other
    field of the object, every other object, both maps and the cached
    snapshot are unchanged.  When no device is stored under [id], the call
    changes nothing at all. *)
Theorem UpdateDeviceStatus_frame (c : Clock) (deviceID : string)
    (online : bool) (w : World) :
  heap_ok w = true →
  (∀ p, devices w !! deviceID = Some p →
     ∃ d d' w',
       devObjs w !! p = Some d
       ∧ UpdateDeviceStatus c deviceID online w = Some w'
       ∧ devObjs w' !! p = Some d'
       ∧ DeviceStatus_Online (Device_Status d') = online
       ∧ DeviceStatus_LastSeen (Device_Status d') = Now c
       ∧ DeviceStatus_ConnectionStatus (Device_Status d')
         = (if online then "connected" else "disconnected")
       ∧ DeviceStatus_ErrorCount (Device_Status d')
         = DeviceStatus_ErrorCount (Device_Status d)
       ∧ same_but_Status d d'
       ∧ (∀ q, q ≠ p → devObjs w' !! q = devObjs w !! q)
       ∧ devices w' = devices w ∧ faults w' = faults w
       ∧ faultObjs w' = faultObjs w
       ∧ statsObjs w' = statsObjs w ∧ statsCache w' = statsCache w
       ∧ statsCacheTime w' = zero)
  ∧ (devices w !! deviceID = None →
     UpdateDeviceStatus c deviceID online w = Some w).
Proof.
  intros Hok. unfold UpdateDeviceStatus. split.
  - intros p Hp. rewrite Hp.
    destruct (heap_ok_device w deviceID p Hok Hp) as [d Hd]. rewrite Hd.
    eexists d, _, _. split; [done|]. split; [done|]. simpl.
    split; [apply lookup_insert_eq|]. simpl.
    split_and!; try done.
    intros q Hq. by rewrite lookup_insert_ne.
  - intros Hnone. by rewrite Hnone.
Qed.

Lemma UpdateDeviceStatus_frame_witness :
  heap_ok examples.populated = true
  ∧ (∃ d d' w',
       devObjs examples.populated !! 1%positive = Some d
       ∧ UpdateDeviceStatus (examples.clockAt 5) "d1" false examples.populated
         = Some w'
       ∧ devObjs w' !! 1%positive = Some d'
       ∧ DeviceStatus_Online (Device_Status d') = false
       ∧ DeviceStatus_ConnectionStatus (Device_Status d') = "disconnected"
       ∧ Device_Tags d' = Device_Tags d
       ∧ devObjs w' !! 2%positive = devObjs examples.populated !! 2%positive
       ∧ statsCacheTime w' = zero)
  ∧ UpdateDeviceStatus (examples.clockAt 5) "nobody" true examples.populated
    = Some examples.populated.
Proof.
  split; [reflexivity|].
  destruct (UpdateDeviceStatus_frame (examples.clockAt 5) "d1" false
              examples.populated eq_refl) as [Hupd _].
  destruct (UpdateDeviceStatus_frame (examples.clockAt 5) "nobody" true
              examples.populated eq_refl) as [_ Hnone].
  split; [|apply Hnone; reflexivity].
  destruct (Hupd 1%positive eq_refl)
    as (d & d' & w' & Hd & Hrun & Hd' & Hon & _ & Hcs & _ & Hsame & Hother
        & _ & _ & _ & _ & _ & Hzero).
  exists d, d', w'. split_and!; try done.
  - apply Hsame.
  - by apply Hother.
Defined.

(** ** Faults *)

(** C6. For every fault identifier that is not stored and every actor,
    [AcknowledgeFault] returns [ErrFaultNotFound] and leaves the whole state
    as it was: the fault map, the fault objects and the cache timestamp in
    particular. *)
Theorem AcknowledgeFault_missing (c : Clock) (faultID acknowledgedBy : string)
    (w : World) :
  faults w !! faultID = None →
  ∃ w',
    AcknowledgeFault c faultID acknowledgedBy w = Some (Some ErrFaultNotFound, w')
    ∧ w' = w
    ∧ faults w' = faults w
    ∧ faultObjs w' = faultObjs w
    ∧ statsCacheTime w' = statsCacheTime w.
Proof.
  intros Hnone. unfold AcknowledgeFault. rewrite Hnone. by exists w.
Qed.

(** The cache of [cached] is valid; the failed call does not invalidate
    it. *)
Lemma AcknowledgeFault_missing_witness :
  faults examples.cached !! "missing-id" = None
  ∧ ∃ w',
      AcknowledgeFault (examples.clockAt 5) "missing-id" "bob" examples.cached
      = Some (Some ErrFaultNotFound, w')
      ∧ w' = examples.cached
      ∧ faults w' = faults examples.cached
      ∧ faultObjs w' = faultObjs examples.cached
      ∧ statsCacheTime w' = statsCacheTime examples.cached.
Proof.
  split; [reflexivity|].
  apply (AcknowledgeFault_missing (examples.clockAt 5) "missing-id" "bob"
           examples.cached).
  reflexivity.
Defined.

(** C5 at the failing inputs.  [AcknowledgeFault] on the already
    acknowledged fault "f3" returns [nil] and overwrites the actor and the
    time; on the resolved fault "f2" it returns [nil] and moves the status
    back to "acknowledged"; [ResolveFault] on the resolved fault "f2"
    returns [nil] and overwrites the actor and the time. *)
Lemma AcknowledgeFault_ResolveFault_do_not_reject :
  (Fault_Status <$> faultObjs examples.withAcknowledged !! 3%positive
   = Some FaultStatusAcknowledged
   ∧ ∃ w',
       AcknowledgeFault (examples.clockAt 5) "f3" "bob"
                        examples.withAcknowledged = Some (None, w')
       ∧ Fault_AcknowledgedBy <$> faultObjs examples.withAcknowledged
                                    !! 3%positive = Some "alice"
       ∧ Fault_AcknowledgedBy <$> faultObjs w' !! 3%positive = Some "bob"
       ∧ (Fault_AcknowledgedAt <$> faultObjs w' !! 3%positive)
         = Some (Some (Now (examples.clockAt 5))))
  ∧ (Fault_Status <$> faultObjs examples.withAcknowledged !! 2%positive
     = Some FaultStatusResolved
     ∧ ∃ w',
         AcknowledgeFault (examples.clockAt 5) "f2" "bob"
                          examples.withAcknowledged = Some (None, w')
         ∧ Fault_Status <$> faultObjs w' !! 2%positive
           = Some FaultStatusAcknowledged)
  ∧ (∃ w',
       ResolveFault (examples.clockAt 5) "f2" "bob" examples.withAcknowledged
       = Some (None, w')
       ∧ Fault_ResolvedBy <$> faultObjs examples.withAcknowledged
                                !! 2%positive = Some "carol"
       ∧ Fault_ResolvedBy <$> faultObjs w' !! 2%positive = Some "bob").
Proof.
  split_and!; try reflexivity.
  - eexists. split; [reflexivity|]. by split_and!.
  - eexists. split; reflexivity.
  - eexists. split; [reflexivity|]. by split.
Qed.

(** ** The statistics cache *)

Lemma run_takes_effect (c : Clock) (m : Mutation) (w : World) :
  heap_ok w = true → takes_effect m w = true →
  ∃ w', run c m w = Some (None, w') ∧ statsCacheTime w' = zero.
Proof.
  intros Hok Heff.
  destruct m as [p|id|id online|p|id who|id who]; simpl in *.
  - apply bool_decide_eq_true in Heff as [d Hd].
    unfold AddDevice. rewrite Hd. simpl. eauto.
  - eauto.
  - apply bool_decide_eq_true in Heff as [p Hp].
    destruct (heap_ok_device w id p Hok Hp) as [d Hd].
    unfold UpdateDeviceStatus. rewrite Hp, Hd. simpl. eauto.
  - apply bool_decide_eq_true in Heff as [f Hf].
    unfold AddFault. rewrite Hf. simpl. eauto.
  - apply bool_decide_eq_true in Heff as [p Hp].
    destruct (heap_ok_fault w id p Hok Hp) as [f Hf].
    unfold AcknowledgeFault. rewrite Hp, Hf. eauto.
  - apply bool_decide_eq_true in Heff as [p Hp].
    destruct (heap_ok_fault w id p Hok Hp) as [f Hf].
    unfold ResolveFault. rewrite Hp, Hf. eauto.
Qed.

Lemma GetDeviceStats_stale (cSince cNow : Clock) (w w' : World) :
  Minute ≤ Since cSince (statsCacheTime w) →
  updateStatsCache cNow w = Some w' →
  GetDeviceStats cSince cNow w = Some (statsCache w', w').
Proof.
  intros Hstale Hupd. unfold GetDeviceStats.
  destruct (Z.ltb_spec (Since cSince (statsCacheTime w)) Minute); [lia|].
  by rewrite Hupd.
Qed.

(** C1. Each of the six mutating operations, called where it takes effect
    ([AddDevice] / [AddFault] with a valid pointer, [RemoveDevice] always,
    [UpdateDeviceStatus] on a stored device, [AcknowledgeFault] /
    [ResolveFault] on a stored fault), returns without error and leaves the
    cache timestamp at the zero time.  The next [GetDeviceStats] then
    recomputes, however recent the previous snapshot is: it returns a newly
    allocated snapshot, the one computed from the device and fault sets as
    the mutation left them, whose counts are those of these sets, and it
    leaves the sets as they are.  The wall clock is assumed to read at least
    one minute past the zero time (January 1 of year 1), as any clock set
    to a date after 1970 does. *)
Theorem mutation_invalidates_stats (c cSince cNow : Clock) (m : Mutation)
    (w : World) :
  heap_ok w = true →
  takes_effect m w = true →
  Minute ≤ wallClock cSince →
  ∃ w',
    run c m w = Some (None, w')
    ∧ statsCacheTime w' = zero
    ∧ ∃ p w'' stats,
        GetDeviceStats cSince cNow w' = Some (p, w'')
        ∧ computeStats w' = Some stats
        ∧ statsObjs w'' !! p = Some stats
        ∧ statsObjs w' !! p = None
        ∧ statsCache w'' = p
        ∧ devices w'' = devices w' ∧ faults w'' = faults w'
        ∧ devObjs w'' = devObjs w' ∧ faultObjs w'' = faultObjs w'
        ∧ (fits_int w' = true →
           TotalDevices stats = Z.of_nat (size (devices w'))
           ∧ OnlineDevices stats = count isOnline (storedDevices w')
           ∧ OfflineDevices stats
             = count (λ d, negb (isOnline d)) (storedDevices w')
           ∧ ActiveFaults stats = count isActive (storedFaults w')
           ∧ CriticalFaults stats
             = count (λ f, isActive f && isCritical f) (storedFaults w')).
Proof.
  intros Hok Heff Hclock.
  destruct (run_takes_effect c m w Hok Heff) as (w' & Hrun & Hzero).
  exists w'. split; [done|]. split; [done|].
  pose proof (run_heap_ok c m w w' None Hok Hrun) as Hok'.
  destruct (computeStats_total w' Hok') as [stats Hstats].
  destruct (updateStatsCache_spec cNow w' stats Hstats)
    as (w'' & Hupd & Hp & Hnew & Hobjs & _ & Hd & Hf & Hdo & Hfo).
  exists (statsCache w''), w'', stats.
  split.
  { apply GetDeviceStats_stale; [|done]. rewrite Hzero. by apply Since_zero. }
  split_and!; try done.
  - rewrite Hobjs. apply lookup_insert_eq.
  - intros Hfit.
    destruct (computeStats_exact w' Hok' Hfit)
      as (stats' & Hs' & HT & HOn & HOff & _ & _ & _ & _ & HA & HC).
    rewrite Hstats in Hs'. injection Hs' as <-. by split_and!.
Qed.

(** The snapshot of [cached], computed at second 0, counts two devices
    online and one offline.  The device "d1" goes offline at second 10,
    which gives the state [offline], and the statistics read at second 20
    count one online and two offline. *)
Lemma mutation_invalidates_stats_witness :
  heap_ok examples.cached = true
  ∧ takes_effect (CallUpdateDeviceStatus "d1" false) examples.cached = true
  ∧ Minute ≤ wallClock (examples.clockAt 20)
  ∧ Since (examples.clockAt 20) (statsCacheTime examples.cached) < Minute
  ∧ OnlineDevices <$> statsObjs examples.cached !! statsCache examples.cached
    = Some 2
  ∧ run (examples.clockAt 10) (CallUpdateDeviceStatus "d1" false)
        examples.cached = Some (None, examples.offline)
  ∧ statsCacheTime examples.offline = zero
  ∧ ∃ p w'' stats,
      GetDeviceStats (examples.clockAt 20) (examples.clockAt 20)
                     examples.offline = Some (p, w'')
      ∧ statsObjs w'' !! p = Some stats
      ∧ statsObjs examples.offline !! p = None
      ∧ TotalDevices stats = 3
      ∧ OnlineDevices stats = 1
      ∧ OfflineDevices stats = 2.
Proof.
  assert (Hrun' : run (examples.clockAt 10)
                      (CallUpdateDeviceStatus "d1" false) examples.cached
                  = Some (None, examples.offline))
    by (vm_compute; reflexivity).
  split; [reflexivity|]. split; [reflexivity|].
  split; [by vm_compute|]. split; [by vm_compute|].
  split; [vm_compute; reflexivity|]. split; [exact Hrun'|].
  destruct (mutation_invalidates_stats (examples.clockAt 10)
              (examples.clockAt 20) (examples.clockAt 20)
              (CallUpdateDeviceStatus "d1" false) examples.cached)
    as (w' & Hrun & Hzero & p & w'' & stats & Hget & _ & Hp & Hnew & _ & _
        & _ & _ & _ & Hexact).
  - reflexivity.
  - reflexivity.
  - by vm_compute.
  - assert (Hw' : w' = examples.offline) by congruence. subst w'.
    split; [exact Hzero|].
    destruct Hexact as (HT & HOn & HOff & _); [vm_compute; reflexivity|].
    exists p, w'', stats.
    split; [exact Hget|]. split; [exact Hp|]. split; [exact Hnew|].
    rewrite HT, HOn, HOff.
    split; [vm_compute; reflexivity|]. split; vm_compute; reflexivity.
Defined.

(** C2. [updateStatsCache] succeeds and stores a snapshot of exact counts:
    [TotalDevices] is the number of stored devices; [OnlineDevices] and
    [OfflineDevices] count the devices whose online flag is set and unset;
    the two histograms hold, for every key, the number of devices whose
    manufacturer (model name), with "Unknown" standing for the empty
    string, is that key, and no entry where that number is zero;
    [ActiveFaults] counts the faults of status "active" or "acknowledged"
    and [CriticalFaults] those of them of severity "critical".  This is
    the snapshot [GetDeviceStats] returns whenever the cache is stale. *)
Theorem updateStatsCache_exact (cSince cNow : Clock) (w : World) :
  heap_ok w = true → fits_int w = true →
  ∃ w' stats,
    updateStatsCache cNow w = Some w'
    ∧ statsObjs w' !! statsCache w' = Some stats
    ∧ (Minute ≤ Since cSince (statsCacheTime w) →
       GetDeviceStats cSince cNow w = Some (statsCache w', w'))
    ∧ TotalDevices stats = Z.of_nat (size (devices w))
    ∧ Z.of_nat (length (storedDevices w)) = Z.of_nat (size (devices w))
    ∧ OnlineDevices stats = count isOnline (storedDevices w)
    ∧ OfflineDevices stats = count (λ d, negb (isOnline d)) (storedDevices w)
    ∧ (∀ k, DevicesByVendor stats !! k
            = histOf (vendorOf <$> storedDevices w) k)
    ∧ (∀ k, DevicesByModel stats !! k
            = histOf (modelOf <$> storedDevices w) k)
    ∧ (∀ d, vendorOf d
            = if String.eqb (DeviceID_Manufacturer (Device_DeviceID d)) ""
              then "Unknown"
              else DeviceID_Manufacturer (Device_DeviceID d))
    ∧ (∀ d, modelOf d
            = if String.eqb (DeviceID_ModelName (Device_DeviceID d)) ""
              then "Unknown"
              else DeviceID_ModelName (Device_DeviceID d))
    ∧ ActiveFaults stats = count isActive (storedFaults w)
    ∧ CriticalFaults stats
      = count (λ f, isActive f && isCritical f) (storedFaults w).
Proof.
  intros Hok Hfit.
  destruct (computeStats_exact w Hok Hfit)
    as (stats & Hs & HT & HOn & HOff & HV & HM & _ & _ & HA & HC).
  destruct (updateStatsCache_spec cNow w stats Hs)
    as (w' & Hupd & _ & _ & Hobjs & _).
  exists w', stats. split_and!; try done.
  - rewrite Hobjs. apply lookup_insert_eq.
  - intros Hstale. by apply GetDeviceStats_stale.
  - by rewrite storedDevices_length.
Qed.

(** The scenario of the specification: three devices (two online, one
    offline) and two faults (one critical and active, one minor and
    resolved). *)
Lemma updateStatsCache_exact_witness :
  heap_ok examples.populated = true
  ∧ fits_int examples.populated = true
  ∧ ∃ p w' stats,
      GetDeviceStats (examples.clockAt 0) (examples.clockAt 0)
                     examples.populated = Some (p, w')
      ∧ statsObjs w' !! p = Some stats
      ∧ TotalDevices stats = 3
      ∧ OnlineDevices stats = 2
      ∧ OfflineDevices stats = 1
      ∧ DevicesByVendor stats !! "Acme" = Some 2
      ∧ DevicesByVendor stats !! "Unknown" = Some 1
      ∧ DevicesByVendor stats !! "" = None
      ∧ DevicesByModel stats !! "X1" = Some 2
      ∧ DevicesByModel stats !! "Unknown" = Some 1
      ∧ ActiveFaults stats = 1
      ∧ CriticalFaults stats = 1.
Proof.
  split; [reflexivity|]. split; [reflexivity|].
  destruct (updateStatsCache_exact (examples.clockAt 0) (examples.clockAt 0)
              examples.populated eq_refl eq_refl)
    as (w' & stats & _ & Hs & Hget & HT & _ & HOn & HOff & HV & HM & _ & _
        & HA & HC).
  exists (statsCache w'), w', stats.
  split; [apply Hget; by vm_compute|]. split; [done|].
  rewrite HT, HOn, HOff, !HV, !HM, HA, HC.
  repeat split; vm_compute; reflexivity.
Defined.

(** C10. Every snapshot [updateStatsCache] produces satisfies
    [TotalDevices = OnlineDevices + OfflineDevices]; the values of
    [DevicesByVendor] sum to [TotalDevices], and so do those of
    [DevicesByModel]; and [0 ≤ CriticalFaults ≤ ActiveFaults]. *)
Theorem updateStatsCache_invariants (c : Clock) (w : World) :
  heap_ok w = true → fits_int w = true →
  ∃ w' stats,
    updateStatsCache c w = Some w'
    ∧ statsObjs w' !! statsCache w' = Some stats
    ∧ TotalDevices stats = OnlineDevices stats + OfflineDevices stats
    ∧ sumValues (DevicesByVendor stats) = TotalDevices stats
    ∧ sumValues (DevicesByModel stats) = TotalDevices stats
    ∧ 0 ≤ CriticalFaults stats
    ∧ CriticalFaults stats ≤ ActiveFaults stats.
Proof.
  intros Hok Hfit.
  destruct (computeStats_exact w Hok Hfit)
    as (stats & Hs & HT & HOn & HOff & _ & _ & HSV & HSM & HA & HC).
  destruct (updateStatsCache_spec c w stats Hs)
    as (w' & Hupd & _ & _ & Hobjs & _).
  exists w', stats. split_and!; try done.
  - rewrite Hobjs. apply lookup_insert_eq.
  - rewrite HT, HOn, HOff, count_split. by rewrite storedDevices_length.
  - by rewrite HSV, HT.
  - by rewrite HSM, HT.
  - rewrite HC. apply count_nonneg.
  - rewrite HC, HA. apply count_and_le.
Qed.

Lemma updateStatsCache_invariants_witness :
  heap_ok examples.withAcknowledged = true
  ∧ fits_int examples.withAcknowledged = true
  ∧ ∃ w' stats,
      updateStatsCache (examples.clockAt 0) examples.withAcknowledged
      = Some w'
      ∧ statsObjs w' !! statsCache w' = Some stats
      ∧ TotalDevices stats = OnlineDevices stats + OfflineDevices stats
      ∧ sumValues (DevicesByVendor stats) = TotalDevices stats
      ∧ sumValues (DevicesByModel stats) = TotalDevices stats
      ∧ 0 ≤ CriticalFaults stats
      ∧ CriticalFaults stats ≤ ActiveFaults stats.
Proof.
  split; [reflexivity|]. split; [reflexivity|].
  apply (updateStatsCache_invariants (examples.clockAt 0)
           examples.withAcknowledged); reflexivity.
Defined.

(** With no mutation in between, the next read made while the snapshot is
    younger than a minute returns the cached pointer and changes nothing. *)
Lemma GetDeviceStats_fresh (cSince cNow : Clock) (w : World) :
  Since cSince (statsCacheTime w) < Minute →
  GetDeviceStats cSince cNow w = Some (statsCache w, w).
Proof.
  intros Hfresh. unfold GetDeviceStats.
  by destruct (Z.ltb_spec (Since cSince (statsCacheTime w)) Minute); [|lia].
Qed.

Lemma GetDeviceStats_returns_cache (cSince cNow : Clock) (w w1 : World)
    (p : loc) :
  GetDeviceStats cSince cNow w = Some (p, w1) → p = statsCache w1.
Proof.
  unfold GetDeviceStats.
  destruct (Since cSince (statsCacheTime w) <? Minute); [by intros [= <- <-]|].
  destruct (updateStatsCache cNow w); by intros [= <- <-].
Qed.

Lemma saturate_lt_Minute (d : Z) : d < Minute → saturate d < Minute.
Proof.
  unfold saturate, minDuration, maxDuration, Minute, Second, Nanosecond. lia.
Qed.

(** C7, as the code has it.  When [GetDeviceStats] has returned a snapshot
    and is called again with no mutation in between while the cache is less
    than a minute old, the age being counted from the time the snapshot was
    computed, the second call returns the very same pointer and leaves the
    whole state, heap included, as it was: nothing is recomputed.  When the
    first call itself recomputed, that age is the monotonic time elapsed
    since the first call. *)
Theorem GetDeviceStats_twice_same_object
    (cSince1 cNow1 cSince2 cNow2 : Clock) (w w1 : World) (p1 : loc) :
  GetDeviceStats cSince1 cNow1 w = Some (p1, w1) →
  (Since cSince2 (statsCacheTime w1) < Minute →
   GetDeviceStats cSince2 cNow2 w1 = Some (p1, w1))
  ∧ (Minute ≤ Since cSince1 (statsCacheTime w) →
     monoClock cSince2 - monoClock cNow1 < Minute →
     GetDeviceStats cSince2 cNow2 w1 = Some (p1, w1)).
Proof.
  intros Hfirst.
  pose proof (GetDeviceStats_returns_cache _ _ _ _ _ Hfirst) as ->.
  split.
  - intros Hfresh. by apply GetDeviceStats_fresh.
  - intros Hstale Hsoon. apply GetDeviceStats_fresh.
    unfold GetDeviceStats in Hfirst.
    destruct (Z.ltb_spec (Since cSince1 (statsCacheTime w)) Minute); [lia|].
    unfold updateStatsCache in Hfirst.
    destruct (computeStats w); [|done].
    simpl in Hfirst. injection Hfirst as _ <-. simpl.
    by apply saturate_lt_Minute.
Qed.

(** The first read of [populated], at second 0, computes the snapshot and
    leaves the state [cached]; the read at second 59 returns the same
    object. *)
Lemma GetDeviceStats_twice_same_object_witness :
  GetDeviceStats (examples.clockAt 0) (examples.clockAt 0) examples.populated
  = Some (statsCache examples.cached, examples.cached)
  ∧ Since (examples.clockAt 59) (statsCacheTime examples.cached) < Minute
  ∧ GetDeviceStats (examples.clockAt 59) (examples.clockAt 59) examples.cached
    = Some (statsCache examples.cached, examples.cached).
Proof.
  assert (Hfirst :
            GetDeviceStats (examples.clockAt 0) (examples.clockAt 0)
                           examples.populated
            = Some (statsCache examples.cached, examples.cached))
    by (vm_compute; reflexivity).
  split; [exact Hfirst|]. split; [by vm_compute|].
  apply (proj1 (GetDeviceStats_twice_same_object
                  (examples.clockAt 0) (examples.clockAt 0)
                  (examples.clockAt 59) (examples.clockAt 59)
                  examples.populated examples.cached
                  (statsCache examples.cached) Hfirst)).
  by vm_compute.
Defined.

(** C7, as stated, fails.  The snapshot of [cached], object 2, was computed
    at second 0.  Two reads at seconds 50 and 70, twenty seconds apart and
    with nothing in between (the first one leaves the state as it is),
    return different objects: the second read recomputes and returns the new
    object 3, which holds the same values as object 2. *)
Lemma GetDeviceStats_twice_within_a_minute_differ :
  GetDeviceStats (examples.clockAt 50) (examples.clockAt 50) examples.cached
  = Some (2%positive, examples.cached)
  ∧ monoClock (examples.clockAt 70) - monoClock (examples.clockAt 50) < Minute
  ∧ wallClock (examples.clockAt 70) - wallClock (examples.clockAt 50) < Minute
  ∧ ∃ w2,
      GetDeviceStats (examples.clockAt 70) (examples.clockAt 70)
                     examples.cached = Some (3%positive, w2)
      ∧ 2%positive ≠ 3%positive
      ∧ statsObjs examples.cached !! 3%positive = None
      ∧ is_Some (statsObjs w2 !! 2%positive)
      ∧ statsObjs w2 !! 3%positive = statsObjs w2 !! 2%positive
      ∧ statsCacheTime examples.cached = Now (examples.clockAt 0)
      ∧ statsCacheTime w2 = Now (examples.clockAt 70).
Proof.
  split; [vm_compute; reflexivity|].
  split; [by vm_compute|]. split; [by vm_compute|].
  eexists. split; [vm_compute; reflexivity|].
  split; [done|]. split; [vm_compute; reflexivity|].
  split; [vm_compute; eauto|].
  split; [vm_compute; reflexivity|].
  split; vm_compute; reflexivity.
Qed.

(** ** The filter engine *)

Lemma field_check (f x : string) :
  negb (String.eqb f "") && negb (String.eqb x f) = false
  ↔ (f ≠ "" → x = f).
Proof.
  destruct (String.eqb_spec f ""), (String.eqb_spec x f); simpl;
    intuition congruence.
Qed.

Lemma hasTag_true (d : Device) (tag : string) :
  hasTag d tag = true ↔ Device_Tags d !! tag = Some true.
Proof.
  unfold hasTag. destruct (Device_Tags d !! tag) as [[]|]; simpl;
    intuition congruence.
Qed.

Lemma forallb_hasTag (d : Device) (tags : list string) :
  forallb (hasTag d) tags = true
  ↔ ∀ tag, tag ∈ tags → Device_Tags d !! tag = Some true.
Proof.
  rewrite <- Is_true_true, forallb_True, Forall_forall.
  apply forall_proper. intros tag.
  by rewrite Is_true_true, hasTag_true.
Qed.

Lemma online_check (o : option bool) (x : bool) :
  match o with Some b => negb (Bool.eqb x b) | None => false end = false
  ↔ ∀ b, o = Some b → x = b.
Proof.
  destruct o as [b|]; [|by split].
  destruct x, b; simpl; split; try done.
  - by intros _ b [= <-].
  - intros H. by specialize (H _ eq_refl).
  - intros H. by specialize (H _ eq_refl).
  - by intros _ b [= <-].
Qed.

Lemma tags_check (d : Device) (tags : list string) :
  (if 0 <? Z.of_nat (length tags) then forallb (hasTag d) tags else true)
  = forallb (hasTag d) tags.
Proof.
  destruct (Z.ltb_spec 0 (Z.of_nat (length tags))); [done|].
  destruct tags; [done | simpl in *; lia].
Qed.

Lemma matchesFilter_Some (d : Device) (f : DeviceFilter) :
  matchesFilter d (Some f) = true
  ↔ (DeviceFilter_Manufacturer f ≠ "" →
     DeviceID_Manufacturer (Device_DeviceID d) = DeviceFilter_Manufacturer f)
    ∧ (DeviceFilter_ModelName f ≠ "" →
       DeviceID_ModelName (Device_DeviceID d) = DeviceFilter_ModelName f)
    ∧ (DeviceFilter_ProductClass f ≠ "" →
       DeviceID_ProductClass (Device_DeviceID d) = DeviceFilter_ProductClass f)
    ∧ (∀ online, DeviceFilter_Online f = Some online →
                 DeviceStatus_Online (Device_Status d) = online)
    ∧ (∀ tag, tag ∈ DeviceFilter_Tags f → Device_Tags d !! tag = Some true).
Proof.
  unfold matchesFilter.
  assert (Hip : match DeviceFilter_IPRange f with
                | Some r =>
                    negb (isIPInRange (DeviceID_IPAddress (Device_DeviceID d))
                                      (IPRange_StartIP r) (IPRange_EndIP r))
                | None => false
                end = false) by (by destruct (DeviceFilter_IPRange f)).
  rewrite Hip, tags_check. clear Hip.
  rewrite <- !field_check, <- online_check, <- forallb_hasTag.
  destruct (negb (String.eqb (DeviceFilter_Manufacturer f) "") && _),
    (negb (String.eqb (DeviceFilter_ModelName f) "") && _),
    (negb (String.eqb (DeviceFilter_ProductClass f) "") && _),
    (match DeviceFilter_Online f with Some _ => _ | None => _ end),
    (forallb (hasTag d) (DeviceFilter_Tags f));
    intuition congruence.
Qed.

Lemma filterDevices_spec (h : gmap loc Device) (filter : option DeviceFilter)
    (entries : list (string * loc)) (filtered : list loc) :
  allocated h entries = true →
  filterDevices h filter entries filtered
  = Some (filtered
          ++ omap (λ e, match h !! e.2 with
                        | Some d =>
                            if matchesFilter d filter then Some e.2 else None
                        | None => None
                        end) entries).
Proof.
  revert filtered.
  induction entries as [|[k p] entries IH]; intros filtered Hok; simpl.
  - by rewrite app_nil_r.
  - simpl in Hok. apply andb_true_iff in Hok as [Hp Hok].
    apply bool_decide_eq_true in Hp as [d Hd]. simpl in Hd.
    rewrite Hd. rewrite IH by done.
    destruct (matchesFilter d filter); [by rewrite <- app_assoc | done].
Qed.

Lemma selected_length (h : gmap loc Device) (filter : option DeviceFilter)
    (entries : list (string * loc)) :
  Z.of_nat
    (length (omap (λ e, match h !! e.2 with
                        | Some d =>
                            if matchesFilter d filter then Some e.2 else None
                        | None => None
                        end) entries))
  = count (λ d, matchesFilter d filter) (omap (λ e, h !! e.2) entries).
Proof.
  induction entries as [|[k p] entries IH]; simpl; [done|].
  destruct (h !! p) as [d|]; simpl; [|done].
  destruct (matchesFilter d filter); simpl; unfold omap in IH;
    rewrite ?Nat2Z.inj_succ; lia.
Qed.

(** C4. [GetFilteredDevices] returns the pointers of exactly the stored
    devices that [matchesFilter] accepts, one per accepted entry of the
    map.  [matchesFilter] accepts every device for a [nil] filter; for a
    filter it accepts a device exactly when all of these hold: the
    manufacturer, the model name and the product class each equal the
    filter's field whenever that field is not empty; the online flag equals
    the filter's whenever that pointer is not [nil]; and every tag of the
    filter's list is set on the device (no constraint for an empty list).
    The IP range appears in none of the conditions: [isIPInRange] is
    constantly true. *)
Theorem GetFilteredDevices_exact (filter : option DeviceFilter) (w : World) :
  heap_ok w = true →
  ∃ l,
    GetFilteredDevices filter w = Some l
    ∧ (∀ p, p ∈ l ↔ ∃ k d, devices w !! k = Some p
                            ∧ devObjs w !! p = Some d
                            ∧ matchesFilter d filter = true)
    ∧ Z.of_nat (length l)
      = count (λ d, matchesFilter d filter) (storedDevices w)
    ∧ (∀ d, matchesFilter d None = true)
    ∧ (∀ d f,
         matchesFilter d (Some f) = true
         ↔ (DeviceFilter_Manufacturer f ≠ "" →
            DeviceID_Manufacturer (Device_DeviceID d)
            = DeviceFilter_Manufacturer f)
           ∧ (DeviceFilter_ModelName f ≠ "" →
              DeviceID_ModelName (Device_DeviceID d)
              = DeviceFilter_ModelName f)
           ∧ (DeviceFilter_ProductClass f ≠ "" →
              DeviceID_ProductClass (Device_DeviceID d)
              = DeviceFilter_ProductClass f)
           ∧ (∀ online, DeviceFilter_Online f = Some online →
                        DeviceStatus_Online (Device_Status d) = online)
           ∧ (∀ tag, tag ∈ DeviceFilter_Tags f →
                     Device_Tags d !! tag = Some true))
    ∧ (∀ ip startIP endIP, isIPInRange ip startIP endIP = true).
Proof.
  intros [Hok _]%andb_true_iff. unfold GetFilteredDevices.
  rewrite filterDevices_spec by done. simpl.
  eexists. split; [done|]. split_and!; try done.
  - intros p. rewrite list_elem_of_omap. split.
    + intros ([k q] & Hin & Hsel). simpl in Hsel.
      apply elem_of_map_to_list in Hin.
      destruct (devObjs w !! q) as [d|] eqn:Hd; [|done].
      destruct (matchesFilter d filter) eqn:Hm; [|done].
      injection Hsel as <-. by exists k, d.
    + intros (k & d & Hk & Hd & Hm). exists (k, p). simpl.
      split; [by apply elem_of_map_to_list|]. by rewrite Hd, Hm.
  - apply selected_length.
  - apply matchesFilter_Some.
Qed.

(** Of the three devices of [populated], the first two are made by "Acme"
    and online; the filter also names an IP range, which excludes
    neither. *)
Lemma GetFilteredDevices_exact_witness :
  heap_ok examples.populated = true
  ∧ ∃ l,
      GetFilteredDevices (Some examples.acmeFilter) examples.populated
      = Some l
      ∧ (1%positive ∈ l ∧ 2%positive ∈ l ∧ 3%positive ∉ l)
      ∧ Z.of_nat (length l) = 2.
Proof.
  split; [reflexivity|].
  destruct (GetFilteredDevices_exact (Some examples.acmeFilter)
              examples.populated eq_refl) as (l & Hl & Hin & Hlen & _).
  exists l. split; [done|]. split_and!.
  - apply Hin. eexists "d1", _. split_and!; vm_compute; reflexivity.
  - apply Hin. eexists "d2", _. split_and!; vm_compute; reflexivity.
  - intros (k & d & _ & Hd & Hm)%Hin.
    vm_compute in Hd. injection Hd as <-. by vm_compute in Hm.
  - rewrite Hlen. vm_compute. reflexivity.
Defined.

(** ** The two handlers *)

(** The handler of the SBI router refuses to acknowledge a fault that is
    already acknowledged or resolved, and leaves the state as it was. *)
Lemma producer_AcknowledgeFault_rejects (c : Clock) (faultID : string)
    (req : http.AcknowledgeRequest) (w : World) (fault : loc) (f : Fault) :
  faultID ≠ "" → http.AcknowledgedBy req ≠ "" →
  faults w !! faultID = Some fault → faultObjs w !! fault = Some f →
  Fault_Status f = FaultStatusAcknowledged
  ∨ Fault_Status f = FaultStatusResolved →
  producer.AcknowledgeFault c faultID (Some req) w
  = Some (http.StatusBadRequest, w).
Proof.
  intros Hid Hby Hfault Hf Hstatus. unfold producer.AcknowledgeFault.
  destruct (String.eqb_spec faultID ""); [done|].
  destruct (String.eqb_spec (http.AcknowledgedBy req) ""); [done|].
  unfold GetFault. rewrite Hfault, Hf.
  destruct Hstatus as [-> | ->]; reflexivity.
Qed.

(** The handler of the web router acknowledges the already acknowledged
    fault "f3" again: it answers 200, and the actor is overwritten. *)
Lemma handlers_AcknowledgeFault_overwrites :
  producer.AcknowledgeFault (examples.clockAt 5) "f3"
    (Some (http.mkAcknowledgeRequest "bob" "")) examples.withAcknowledged
  = Some (http.StatusBadRequest, examples.withAcknowledged)
  ∧ ∃ w',
      handlers.AcknowledgeFault (examples.clockAt 5) "f3"
        (Some (http.mkAcknowledgeRequest "bob" "")) examples.withAcknowledged
      = Some (http.StatusOK, w')
      ∧ Fault_AcknowledgedBy <$> faultObjs examples.withAcknowledged
                                   !! 3%positive = Some "alice"
      ∧ Fault_AcknowledgedBy <$> faultObjs w' !! 3%positive = Some "bob".
Proof.
  split; [vm_compute; reflexivity|].
  eexists. split; [vm_compute; reflexivity|].
  split; vm_compute; reflexivity.
Qed.
